(** * serial: the port contract and the configuration normaliser of [OpenPort]

    A shallow embedding of [serial.go] (package [serial]): the [Port]
    interface, the five package-level error values, and [OpenPort], which
    fills in the defaults of a [Config] received by value and hands the
    result to the platform backend [openPort]. *)

From stdpp Require Import gmap strings list.

Local Open Scope Z_scope.

(** ** A state monad with failure

    Package initialisation threads an allocator, and a call of [OpenPort]
    threads the memory and the outside world; a computation that reads an
    unallocated cell has no result. *)

Definition ST (S A : Type) : Type := S → option (A * S).

#[global] Instance ST_ret {S : Type} : MRet (ST S) :=
  λ A a s, Some (a, s).

#[global] Instance ST_bind {S : Type} : MBind (ST S) :=
  λ A B f m s, match m s with
               | Some (a, s') => f a s'
               | None => None
               end.

(** ** Errors: [errors.New]

    Go's [errors.New(text)] returns a pointer to a freshly allocated
    [errorString]; two [error] values are [==] exactly when they are the same
    pointer.  [err_ptr] is that address, [Error] the method returning the
    text. *)

Record error : Type := mk_error { err_ptr : positive; Error : string }.

#[global] Instance error_eq_dec : EqDecision error.
Proof. solve_decision. Defined.

Definition errors_New (text : string) : ST positive error :=
  λ next, Some (mk_error next text, Pos.succ next).

(** The [var] declarations of lines 74-85, in source order. *)
Record package_errors : Type := mk_package_errors {
  ErrNotSupported : error;
  ErrBadSize : error;
  ErrBadStopBits : error;
  ErrBadParity : error;
  ErrInvalidArg : error
}.

Definition package_init : ST positive package_errors :=
  e1 ← errors_New "serial: not supported";
  e2 ← errors_New "serial: unsupported serial data size";
  e3 ← errors_New "serial: unsupported stop bit setting";
  e4 ← errors_New "serial: unsupported parity setting";
  e5 ← errors_New "serial: invalid argument";
  mret (mk_package_errors e1 e2 e3 e4 e5).

(** The error values the package exports, as a list. *)
Definition exported_errors (p : package_errors) : list error :=
  [ErrNotSupported p; ErrBadSize p; ErrBadStopBits p; ErrBadParity p;
   ErrInvalidArg p].

(** ** Configuration *)

(** Modelled from the spec: the declarations of the types [Parity],
    [StopBits] and [Config] are not in serial.go.  [OpenPort] compares the
    fields [Size], [Parity] and [StopBits] with the constant 0, so they are
    integer types; [timeout] is assigned [MaxTimeout], a duration; the
    package comment builds a [Config] from [Name] and [Baud].  The data model
    of the spec lists exactly these six fields. *)
Definition Parity : Type := Z.
Definition StopBits : Type := Z.
Definition Duration : Type := Z.

Module Config.

Record t : Type := mk {
  Name : string;
  Baud : Z;
  Size : Z;
  Parity : Parity;
  StopBits : StopBits;
  timeout : Duration
}.

(** Assignment to one field of a [Config] variable: [c.Size = v] and the
    like. *)
Definition set_Size (v : Z) (c : t) : t :=
  mk (Name c) (Baud c) v (Parity c) (StopBits c) (timeout c).

Definition set_Parity (v : Z) (c : t) : t :=
  mk (Name c) (Baud c) (Size c) v (StopBits c) (timeout c).

Definition set_StopBits (v : Z) (c : t) : t :=
  mk (Name c) (Baud c) (Size c) (Parity c) v (timeout c).

Definition set_timeout (v : Z) (c : t) : t :=
  mk (Name c) (Baud c) (Size c) (Parity c) (StopBits c) v.

End Config.

Abbreviation Config := Config.t.

#[global] Instance Config_eq_dec : EqDecision Config.
Proof. solve_decision. Defined.

(** ** The [Port] interface (lines 64-72)

    A value of the interface is a method table; every method acts on the
    state of the outside world [World] (the device and the operating
    system).  [Read] receives the buffer and returns its new contents with
    the count. *)

Record Port (World : Type) : Type := mk_Port {
  Read : list Byte.byte → World → (list Byte.byte * Z * option error) * World;
  Write : list Byte.byte → World → (Z * option error) * World;
  Close : World → option error * World;
  SetReadDeadline : Duration → World → option error * World;
  Flush : World → option error * World;
  Status : World → (Z * option error) * World;
  SetDTR : bool → World → option error * World;
  SetRTS : bool → World → option error * World;
  SetParity : Parity → World → option error * World
}.

Arguments mk_Port {World}.

(** The value [OpenPort] and the backend return: Go's pair [(Port, error)],
    either of which may be nil. *)
Definition opened (World : Type) : Type :=
  (option (Port World) * option error)%type.

(** ** Memory

    A [Config] variable lives in a cell of the memory; a call passes a
    struct by value, that is, it copies the argument into a fresh cell that
    holds the parameter for the time of the call. *)

Abbreviation loc := positive.

Record state (World : Type) : Type := mk_state {
  heap : gmap loc Config;
  world : World
}.

Arguments mk_state {World}.
Arguments heap {World}.
Arguments world {World}.

Section Memory.
Context {World : Type}.

Definition alloc (v : Config) : ST (state World) loc :=
  λ σ, let l := fresh (dom (heap σ)) in
       Some (l, mk_state (<[l := v]> (heap σ)) (world σ)).

Definition load (l : loc) : ST (state World) Config :=
  λ σ, match heap σ !! l with
       | Some v => Some (v, σ)
       | None => None
       end.

Definition store (l : loc) (v : Config) : ST (state World) unit :=
  λ σ, match heap σ !! l with
       | Some _ => Some ((), mk_state (<[l := v]> (heap σ)) (world σ))
       | None => None
       end.

Definition free (l : loc) : ST (state World) unit :=
  λ σ, Some ((), mk_state (delete l (heap σ)) (world σ)).

(** A field assignment [c.f = v] on the variable at [l]. *)
Definition assign (l : loc) (upd : Config → Config) : ST (state World) unit :=
  v ← load l; store l (upd v).

(** An action on the outside world only. *)
Definition io {A : Type} (act : World → A * World) : ST (state World) A :=
  λ σ, let '(a, w) := act (world σ) in Some (a, mk_state (heap σ) w).

(** The state [σ] with the cell [l] holding [v]. *)
Definition with_cell (σ : state World) (l : loc) (v : Config) : state World :=
  mk_state (<[l := v]> (heap σ)) (world σ).

End Memory.

(** ** [OpenPort] (lines 88-104) *)

Section OpenPort.

(** The constants [OpenPort] assigns.  Their declarations are not in
    serial.go, so they are parameters of the development: nothing below
    depends on their values unless a statement says so. *)
Variable DefaultSize : Z.
Variable ParityNone : Parity.
Variable Stop1 : StopBits.
Variable MaxTimeout : Duration.

(** The platform backend [openPort], one per operating system, and the
    state of the world it acts on. *)
Context {World : Type}.
Variable openPort : Config → World → opened World * World.

(** Lines 89-101 as a function of the value of the parameter [c]: each [let]
    is one statement, rebinding [c] as the assignment does. *)
Definition OpenPort_normalize (c : Config) : Config :=
  let c := if Config.Size c =? 0 then Config.set_Size DefaultSize c else c in
  let c := if Config.Parity c =? 0 then Config.set_Parity ParityNone c else c in
  let c := if Config.StopBits c =? 0 then Config.set_StopBits Stop1 c else c in
  let c := Config.set_timeout MaxTimeout c in
  c.

(** [OpenPort] on values: the result of the call and the world after it. *)
Definition OpenPort (c : Config) (w : World) : opened World * World :=
  openPort (OpenPort_normalize c) w.

(** Lines 89-101 as statements on the cell [c] of the parameter. *)
Definition OpenPort_stmts (c : loc) : ST (state World) unit :=
  v ← load c;
  (if Config.Size v =? 0
   then assign c (Config.set_Size DefaultSize) else mret ());;
  v ← load c;
  (if Config.Parity v =? 0
   then assign c (Config.set_Parity ParityNone) else mret ());;
  v ← load c;
  (if Config.StopBits v =? 0
   then assign c (Config.set_StopBits Stop1) else mret ());;
  assign c (Config.set_timeout MaxTimeout).

(** Entering [OpenPort] with the argument value [arg]: the parameter gets a
    cell of its own, initialised with a copy of [arg], and lines 89-101 run
    on it.  The result is that cell, in the state just before line 103. *)
Definition OpenPort_prologue (arg : Config) : ST (state World) loc :=
  c ← alloc arg;
  OpenPort_stmts c;;
  mret c.

(** The whole call: line 103 passes the value of [c] to the backend, and the
    cell of the parameter dies with the frame. *)
Definition OpenPort_call (arg : Config) : ST (state World) (opened World) :=
  c ← OpenPort_prologue arg;
  v ← load c;
  r ← io (openPort v);
  free c;;
  mret r.

(** A call site [OpenPort(x)] for a variable [x] of the caller. *)
Definition call_OpenPort (x : loc) : ST (state World) (opened World) :=
  v ← load x;
  OpenPort_call v.

End OpenPort.

(** ** Sample inputs *)

(** The configuration of the package comment: only [Name] and [Baud] set. *)
Definition com5 : Config := Config.mk "COM5" 115200 0 0 0 0.

(** A configuration with every optional field set by the caller. *)
Definition com5_7O2 : Config := Config.mk "COM5" 9600 7 79 2 0.

(** Sample values for the four constants: eight data bits, the byte ['N'],
    one stop bit, and the largest 64-bit duration. *)
Definition sample_DefaultSize : Z := 8.

Definition sample_ParityNone : Parity := 78.

Definition sample_Stop1 : StopBits := 1.

Definition sample_MaxTimeout : Duration := 9223372036854775807.

(** A backend on a world without devices: every open fails. *)
Definition no_device : error := mk_error 1 "no such device".

Definition openPort_none (c : Config) (w : unit) : opened unit * unit :=
  ((None, Some no_device), w).

(** A caller whose variable at address 1 holds [com5]. *)
Definition caller_state : state unit := mk_state {[ 1%positive := com5 ]} ().

(** * Properties *)

(** ** The monad and the memory *)

Section MonadFacts.
Context {S : Type}.

Lemma bind_run {A B : Type} (m : ST S A) (f : A → ST S B) (s s' : S) (a : A) :
  m s = Some (a, s') → (m ≫= f) s = f a s'.
Proof. intros Hm. unfold mbind, ST_bind. by rewrite Hm. Qed.

Lemma ret_run {A : Type} (a : A) (s : S) : (mret a : ST S A) s = Some (a, s).
Proof. reflexivity. Qed.

End MonadFacts.

Section MemoryFacts.
Context {World : Type}.
Implicit Types (σ : state World) (l : loc) (v : Config).

Lemma load_run σ l v : heap σ !! l = Some v → load l σ = Some (v, σ).
Proof. intros H. unfold load. by rewrite H. Qed.

Lemma assign_run σ l v upd :
  heap σ !! l = Some v →
  assign l upd σ = Some ((), with_cell σ l (upd v)).
Proof.
  intros H. unfold assign. rewrite (bind_run _ _ _ _ _ (load_run _ _ _ H)).
  unfold store. by rewrite H.
Qed.

Lemma alloc_run σ v :
  ∃ l, heap σ !! l = None ∧ alloc v σ = Some (l, with_cell σ l v).
Proof.
  exists (fresh (dom (heap σ))). split; [|done].
  apply not_elem_of_dom, is_fresh.
Qed.

Lemma with_cell_id σ l v : heap σ !! l = Some v → with_cell σ l v = σ.
Proof.
  intros H. unfold with_cell. rewrite (insert_id _ _ _ H). by destruct σ.
Qed.

Lemma with_cell_lookup σ l v : heap (with_cell σ l v) !! l = Some v.
Proof. apply lookup_insert_eq. Qed.

Lemma with_cell_lookup_ne σ l l' v :
  l ≠ l' → heap (with_cell σ l v) !! l' = heap σ !! l'.
Proof. intros Hne. by apply lookup_insert_ne. Qed.

Lemma with_cell_twice σ l v v' :
  with_cell (with_cell σ l v) l v' = with_cell σ l v'.
Proof. unfold with_cell; cbn. by rewrite insert_insert_eq. Qed.

(** One guarded assignment of [OpenPort]: read the variable, test a field,
    and overwrite it or not. *)
Lemma guarded_step {A : Type} σ l v (cond : Config → bool) upd
    (k : ST (state World) A) :
  (v' ← load l; (if cond v' then assign l upd else mret ());; k)
    (with_cell σ l v)
  = k (with_cell σ l (if cond v then upd v else v)).
Proof.
  rewrite (bind_run _ _ _ _ _ (load_run _ _ _ (with_cell_lookup σ l v))).
  destruct (cond v).
  - rewrite (bind_run _ _ _ _ _ (assign_run _ _ _ upd (with_cell_lookup σ l v))).
    by rewrite with_cell_twice.
  - by rewrite (bind_run _ _ _ _ _ (ret_run () _)).
Qed.

Lemma assign_step σ l v upd :
  assign l upd (with_cell σ l v) = Some ((), with_cell σ l (upd v)).
Proof.
  rewrite (assign_run _ _ _ upd (with_cell_lookup σ l v)).
  by rewrite with_cell_twice.
Qed.

End MemoryFacts.

(** ** The error values *)

Lemma errors_New_run (text : string) (next : positive) :
  errors_New text next = Some (mk_error next text, Pos.succ next).
Proof. reflexivity. Qed.

(** Initialisation allocates the five errors at five consecutive addresses. *)
Lemma package_init_run (start : positive) :
  package_init start
  = Some
      (mk_package_errors
         (mk_error start "serial: not supported")
         (mk_error (start + 1) "serial: unsupported serial data size")
         (mk_error (start + 2) "serial: unsupported stop bit setting")
         (mk_error (start + 3) "serial: unsupported parity setting")
         (mk_error (start + 4) "serial: invalid argument"),
       (start + 5)%positive).
Proof.
  unfold package_init.
  repeat (erewrite bind_run; [|apply errors_New_run]).
  rewrite ret_run. repeat f_equal; lia.
Qed.

(** Errors at different addresses are different values. *)
Lemma NoDup_err_ptr (es : list error) : NoDup (err_ptr <$> es) → NoDup es.
Proof. apply NoDup_fmap_1. Qed.

(** C7. The package defines five error values, [ErrNotSupported],
    [ErrBadSize], [ErrBadStopBits], [ErrBadParity] and [ErrInvalidArg], and
    whatever the allocator state at initialisation, they are pairwise
    distinct: as values, as pointers (what Go's [==] compares), and by
    their texts. *)
Theorem exported_errors_distinct (start : positive) :
  ∃ p next,
    package_init start = Some (p, next)
    ∧ exported_errors p
      = [ErrNotSupported p; ErrBadSize p; ErrBadStopBits p; ErrBadParity p;
         ErrInvalidArg p]
    ∧ length (exported_errors p) = 5%nat
    ∧ NoDup (exported_errors p)
    ∧ NoDup (err_ptr <$> exported_errors p)
    ∧ NoDup (Error <$> exported_errors p).
Proof.
  eexists _, _. split; [apply package_init_run|].
  assert (Hptr : NoDup (err_ptr <$>
            exported_errors
              (mk_package_errors
                 (mk_error start "serial: not supported")
                 (mk_error (start + 1) "serial: unsupported serial data size")
                 (mk_error (start + 2) "serial: unsupported stop bit setting")
                 (mk_error (start + 3) "serial: unsupported parity setting")
                 (mk_error (start + 4) "serial: invalid argument")))).
  { cbn. rewrite !NoDup_cons, !not_elem_of_cons.
    split_and!; try lia; try apply not_elem_of_nil. apply NoDup_nil_2. }
  split_and!; [done | done | by apply NoDup_err_ptr | done |].
  cbn. rewrite !NoDup_cons, !not_elem_of_cons.
  split_and!; try discriminate; try apply not_elem_of_nil. apply NoDup_nil_2.
Qed.

(** ** The normaliser *)

(** Two configurations with the same six fields are the same. *)
Lemma Config_ext (c d : Config) :
  Config.Name c = Config.Name d → Config.Baud c = Config.Baud d →
  Config.Size c = Config.Size d → Config.Parity c = Config.Parity d →
  Config.StopBits c = Config.StopBits d →
  Config.timeout c = Config.timeout d → c = d.
Proof. destruct c, d; cbn; congruence. Qed.

(** Split on the three tests of lines 89, 93 and 97. *)
Ltac by_tests c :=
  unfold OpenPort_normalize;
  destruct (Config.Size c =? 0) eqn:?; cbn;
  destruct (Config.Parity c =? 0) eqn:?; cbn;
  destruct (Config.StopBits c =? 0) eqn:?; cbn.

Section Normalizer.
Variables (DefaultSize : Z) (ParityNone : Parity) (Stop1 : StopBits)
  (MaxTimeout : Duration).
Context {World : Type}.
Variable openPort : Config → World → opened World * World.
Implicit Types (σ : state World) (w : World) (l x : loc) (c v : Config).

Abbreviation normalize :=
  (OpenPort_normalize DefaultSize ParityNone Stop1 MaxTimeout).

Lemma normalize_Size c :
  Config.Size (normalize c)
  = if Config.Size c =? 0 then DefaultSize else Config.Size c.
Proof. by by_tests c. Qed.

Lemma normalize_Parity c :
  Config.Parity (normalize c)
  = if Config.Parity c =? 0 then ParityNone else Config.Parity c.
Proof. by by_tests c. Qed.

Lemma normalize_StopBits c :
  Config.StopBits (normalize c)
  = if Config.StopBits c =? 0 then Stop1 else Config.StopBits c.
Proof. by by_tests c. Qed.

Lemma normalize_timeout c : Config.timeout (normalize c) = MaxTimeout.
Proof. reflexivity. Qed.

Lemma normalize_Name c : Config.Name (normalize c) = Config.Name c.
Proof. by by_tests c. Qed.

Lemma normalize_Baud c : Config.Baud (normalize c) = Config.Baud c.
Proof. by by_tests c. Qed.

(** A default, or a value that was not zero, tested again. *)
Lemma default_again (dflt field : Z) :
  (if (if field =? 0 then dflt else field) =? 0 then dflt
   else if field =? 0 then dflt else field)
  = if field =? 0 then dflt else field.
Proof.
  destruct (field =? 0) eqn:Hf.
  - by destruct (dflt =? 0).
  - by rewrite Hf.
Qed.

(** What [OpenPort] passes to the backend is the normalised record. *)
Lemma OpenPort_backend c w :
  OpenPort DefaultSize ParityNone Stop1 MaxTimeout openPort c w
  = openPort (normalize c) w.
Proof. reflexivity. Qed.

(** The statements compute [OpenPort_normalize] in place, and touch nothing
    but the cell they are given. *)
Lemma OpenPort_stmts_cell σ l v :
  OpenPort_stmts DefaultSize ParityNone Stop1 MaxTimeout l (with_cell σ l v)
  = Some ((), with_cell σ l (normalize v)).
Proof.
  unfold OpenPort_stmts.
  rewrite (guarded_step σ l v (λ v, Config.Size v =? 0)).
  rewrite (guarded_step σ l _ (λ v, Config.Parity v =? 0)).
  rewrite (guarded_step σ l _ (λ v, Config.StopBits v =? 0)).
  by rewrite assign_step.
Qed.

Lemma OpenPort_stmts_run σ l v :
  heap σ !! l = Some v →
  OpenPort_stmts DefaultSize ParityNone Stop1 MaxTimeout l σ
  = Some ((), with_cell σ l (normalize v)).
Proof.
  intros H. rewrite <- (with_cell_id σ l v H) at 1. apply OpenPort_stmts_cell.
Qed.

Lemma OpenPort_prologue_run σ c :
  ∃ l, heap σ !! l = None
       ∧ OpenPort_prologue DefaultSize ParityNone Stop1 MaxTimeout c σ
         = Some (l, with_cell σ l (normalize c)).
Proof.
  destruct (alloc_run σ c) as (l & Hl & Ha). exists l. split; [done|].
  unfold OpenPort_prologue. rewrite (bind_run _ _ _ _ _ Ha).
  by rewrite (bind_run _ _ _ _ _ (OpenPort_stmts_cell σ l c)).
Qed.

(** The call on the memory refines [OpenPort] on values, and gives the
    memory back as it found it. *)
Lemma OpenPort_call_run σ c :
  OpenPort_call DefaultSize ParityNone Stop1 MaxTimeout openPort c σ
  = Some ((openPort (normalize c) (world σ)).1,
          mk_state (heap σ) (openPort (normalize c) (world σ)).2).
Proof.
  destruct (OpenPort_prologue_run σ c) as (l & Hl & Hp).
  unfold OpenPort_call. rewrite (bind_run _ _ _ _ _ Hp).
  rewrite (bind_run _ _ _ _ _ (load_run _ _ _ (with_cell_lookup σ l _))).
  unfold io, free, mbind, ST_bind, mret, ST_ret; cbn.
  destruct (openPort (normalize c) (world σ)) as [r w]; cbn.
  by rewrite delete_insert_eq, (delete_id _ _ Hl).
Qed.

(** C1. When the caller leaves [Size], [Parity] and [StopBits] at zero,
    the normalised record has [Size = DefaultSize], which is 8 as the
    package comment promises (eight data bits), [Parity = ParityNone] and
    [StopBits = Stop1]. *)
Theorem OpenPort_fills_defaults c :
  DefaultSize = 8 →
  Config.Size c = 0 → Config.Parity c = 0 → Config.StopBits c = 0 →
  Config.Size (normalize c) = 8
  ∧ Config.Parity (normalize c) = ParityNone
  ∧ Config.StopBits (normalize c) = Stop1.
Proof.
  intros HD HS HP HB.
  rewrite normalize_Size, normalize_Parity, normalize_StopBits.
  by rewrite HS, HP, HB.
Qed.

(** C2. Each of [Size], [Parity] and [StopBits] that the caller set to a
    value other than zero has that same value after normalisation. *)
Theorem OpenPort_keeps_set_fields c :
  (Config.Size c ≠ 0 → Config.Size (normalize c) = Config.Size c)
  ∧ (Config.Parity c ≠ 0 → Config.Parity (normalize c) = Config.Parity c)
  ∧ (Config.StopBits c ≠ 0
     → Config.StopBits (normalize c) = Config.StopBits c).
Proof.
  rewrite normalize_Size, normalize_Parity, normalize_StopBits.
  split_and!; intros Hne; by rewrite (proj2 (Z.eqb_neq _ _) Hne).
Qed.

(** C3. The constants [DefaultSize], [ParityNone] and [Stop1] being values
    other than zero, the record [OpenPort] passes to the backend has [Size],
    [Parity] and [StopBits] other than zero, whatever the caller's record. *)
Theorem OpenPort_no_zero_field c w :
  DefaultSize ≠ 0 → ParityNone ≠ 0 → Stop1 ≠ 0 →
  OpenPort DefaultSize ParityNone Stop1 MaxTimeout openPort c w
  = openPort (normalize c) w
  ∧ Config.Size (normalize c) ≠ 0
  ∧ Config.Parity (normalize c) ≠ 0
  ∧ Config.StopBits (normalize c) ≠ 0.
Proof.
  intros HD HP HS. split; [apply OpenPort_backend|].
  rewrite normalize_Size, normalize_Parity, normalize_StopBits.
  split_and!.
  - destruct (Config.Size c =? 0) eqn:E; [done | by apply Z.eqb_neq].
  - destruct (Config.Parity c =? 0) eqn:E; [done | by apply Z.eqb_neq].
  - destruct (Config.StopBits c =? 0) eqn:E; [done | by apply Z.eqb_neq].
Qed.

(** C4. The record passed to the backend has the caller's [Name] and
    [Baud], whatever they are; a [Baud] of zero stays zero. *)
Theorem OpenPort_keeps_Name_Baud c w :
  OpenPort DefaultSize ParityNone Stop1 MaxTimeout openPort c w
  = openPort (normalize c) w
  ∧ Config.Name (normalize c) = Config.Name c
  ∧ Config.Baud (normalize c) = Config.Baud c.
Proof.
  split; [apply OpenPort_backend|].
  by rewrite normalize_Name, normalize_Baud.
Qed.

(** C5. The record passed to the backend has [timeout = MaxTimeout], and
    the [timeout] the caller's record carried has no influence on it. *)
Theorem OpenPort_forces_timeout c w :
  OpenPort DefaultSize ParityNone Stop1 MaxTimeout openPort c w
  = openPort (normalize c) w
  ∧ Config.timeout (normalize c) = MaxTimeout
  ∧ ∀ t : Duration, normalize (Config.set_timeout t c) = normalize c.
Proof.
  split; [apply OpenPort_backend|]. split; [apply normalize_timeout|].
  intros t. destruct c as [name baud size parity stop t0].
  unfold OpenPort_normalize; cbn.
  by destruct (size =? 0); cbn; destruct (parity =? 0); cbn;
    destruct (stop =? 0).
Qed.

(** C6. For every configuration and every state, lines 89-101 run to the
    end on the parameter's cell and leave the outside world as it was; the
    call then returns, and its result, error included, and the world after
    it are those of the backend on the normalised record. *)
Theorem OpenPort_normalization_total c σ :
  (∃ l σ1,
      OpenPort_prologue DefaultSize ParityNone Stop1 MaxTimeout c σ
      = Some (l, σ1)
      ∧ heap σ1 !! l = Some (normalize c)
      ∧ world σ1 = world σ)
  ∧ ∃ r σ',
      OpenPort_call DefaultSize ParityNone Stop1 MaxTimeout openPort c σ
      = Some (r, σ')
      ∧ r = (openPort (normalize c) (world σ)).1
      ∧ r.2 = (openPort (normalize c) (world σ)).1.2
      ∧ world σ' = (openPort (normalize c) (world σ)).2.
Proof.
  split.
  - destruct (OpenPort_prologue_run σ c) as (l & _ & Hp).
    exists l, (with_cell σ l (normalize c)).
    split_and!; [done | apply with_cell_lookup | done].
  - eexists _, _. split; [apply OpenPort_call_run|]. done.
Qed.

(** C9. Normalising a normalised record changes nothing. *)
Theorem OpenPort_normalize_idempotent c :
  OpenPort_normalize DefaultSize ParityNone Stop1 MaxTimeout
    (OpenPort_normalize DefaultSize ParityNone Stop1 MaxTimeout c)
  = OpenPort_normalize DefaultSize ParityNone Stop1 MaxTimeout c.
Proof.
  apply Config_ext.
  - by rewrite !normalize_Name.
  - by rewrite !normalize_Baud.
  - rewrite !normalize_Size. apply default_again.
  - rewrite !normalize_Parity. apply default_again.
  - rewrite !normalize_StopBits. apply default_again.
  - by rewrite !normalize_timeout.
Qed.

(** C10. A caller's variable [x] holding [c]: inside [OpenPort] the
    parameter is another cell, which lines 89-101 rewrite to the normalised
    record while [x] still holds [c]; and when the call [OpenPort(x)]
    returns, the memory is what it was before, so [x] holds [c]. *)
Theorem OpenPort_leaves_caller_record x c σ :
  heap σ !! x = Some c →
  (∃ l σ1,
      OpenPort_prologue DefaultSize ParityNone Stop1 MaxTimeout c σ
      = Some (l, σ1)
      ∧ l ≠ x
      ∧ heap σ1 !! l = Some (normalize c)
      ∧ heap σ1 !! x = Some c)
  ∧ ∃ r σ',
      call_OpenPort DefaultSize ParityNone Stop1 MaxTimeout openPort x σ
      = Some (r, σ')
      ∧ heap σ' = heap σ
      ∧ heap σ' !! x = Some c.
Proof.
  intros Hx. split.
  - destruct (OpenPort_prologue_run σ c) as (l & Hl & Hp).
    assert (l ≠ x) as Hne by congruence.
    exists l, (with_cell σ l (normalize c)).
    split_and!; [done | done | apply with_cell_lookup |].
    by rewrite with_cell_lookup_ne.
  - eexists _, _. split.
    + unfold call_OpenPort. rewrite (bind_run _ _ _ _ _ (load_run _ _ _ Hx)).
      apply OpenPort_call_run.
    + done.
Qed.

End Normalizer.

(** ** The properties at the sample inputs *)

Lemma OpenPort_fills_defaults_witness :
  sample_DefaultSize = 8
  ∧ Config.Size com5 = 0 ∧ Config.Parity com5 = 0 ∧ Config.StopBits com5 = 0
  ∧ (Config.Size
       (OpenPort_normalize sample_DefaultSize sample_ParityNone sample_Stop1
          sample_MaxTimeout com5) = 8
     ∧ Config.Parity
         (OpenPort_normalize sample_DefaultSize sample_ParityNone sample_Stop1
            sample_MaxTimeout com5) = sample_ParityNone
     ∧ Config.StopBits
         (OpenPort_normalize sample_DefaultSize sample_ParityNone sample_Stop1
            sample_MaxTimeout com5) = sample_Stop1).
Proof.
  split; [reflexivity|]. split; [reflexivity|].
  split; [reflexivity|]. split; [reflexivity|].
  apply (OpenPort_fills_defaults sample_DefaultSize sample_ParityNone
           sample_Stop1 sample_MaxTimeout com5); reflexivity.
Defined.

Lemma OpenPort_keeps_set_fields_witness :
  (Config.Size com5_7O2 ≠ 0
   ∧ Config.Size
       (OpenPort_normalize sample_DefaultSize sample_ParityNone sample_Stop1
          sample_MaxTimeout com5_7O2) = 7)
  ∧ (Config.Parity com5_7O2 ≠ 0
     ∧ Config.Parity
         (OpenPort_normalize sample_DefaultSize sample_ParityNone sample_Stop1
            sample_MaxTimeout com5_7O2) = 79)
  ∧ (Config.StopBits com5_7O2 ≠ 0
     ∧ Config.StopBits
         (OpenPort_normalize sample_DefaultSize sample_ParityNone sample_Stop1
            sample_MaxTimeout com5_7O2) = 2).
Proof.
  destruct (OpenPort_keeps_set_fields sample_DefaultSize sample_ParityNone
              sample_Stop1 sample_MaxTimeout com5_7O2) as (HS & HP & HB).
  split_and!; try discriminate.
  - apply HS; discriminate.
  - apply HP; discriminate.
  - apply HB; discriminate.
Defined.

Lemma OpenPort_no_zero_field_witness :
  sample_DefaultSize ≠ 0 ∧ sample_ParityNone ≠ 0 ∧ sample_Stop1 ≠ 0
  ∧ (OpenPort sample_DefaultSize sample_ParityNone sample_Stop1
       sample_MaxTimeout openPort_none com5 ()
     = openPort_none
         (OpenPort_normalize sample_DefaultSize sample_ParityNone sample_Stop1
            sample_MaxTimeout com5) ()
     ∧ Config.Size
         (OpenPort_normalize sample_DefaultSize sample_ParityNone sample_Stop1
            sample_MaxTimeout com5) ≠ 0
     ∧ Config.Parity
         (OpenPort_normalize sample_DefaultSize sample_ParityNone sample_Stop1
            sample_MaxTimeout com5) ≠ 0
     ∧ Config.StopBits
         (OpenPort_normalize sample_DefaultSize sample_ParityNone sample_Stop1
            sample_MaxTimeout com5) ≠ 0).
Proof.
  split; [discriminate|]. split; [discriminate|]. split; [discriminate|].
  apply (OpenPort_no_zero_field sample_DefaultSize sample_ParityNone
           sample_Stop1 sample_MaxTimeout openPort_none com5 ());
    discriminate.
Defined.

Lemma OpenPort_leaves_caller_record_witness :
  heap caller_state !! 1%positive = Some com5
  ∧ ((∃ l σ1,
         OpenPort_prologue sample_DefaultSize sample_ParityNone sample_Stop1
           sample_MaxTimeout com5 caller_state = Some (l, σ1)
         ∧ l ≠ 1%positive
         ∧ heap σ1 !! l
           = Some (OpenPort_normalize sample_DefaultSize sample_ParityNone
                     sample_Stop1 sample_MaxTimeout com5)
         ∧ heap σ1 !! 1%positive = Some com5)
     ∧ ∃ r σ',
         call_OpenPort sample_DefaultSize sample_ParityNone sample_Stop1
           sample_MaxTimeout openPort_none 1%positive caller_state
         = Some (r, σ')
         ∧ heap σ' = heap caller_state
         ∧ heap σ' !! 1%positive = Some com5).
Proof.
  split; [reflexivity|].
  apply (OpenPort_leaves_caller_record sample_DefaultSize sample_ParityNone
           sample_Stop1 sample_MaxTimeout openPort_none 1%positive com5
           caller_state).
  reflexivity.
Defined.

(** * Further properties of [OpenPort] and of the error values *)

Section Further.
Variables (DefaultSize : Z) (ParityNone : Parity) (Stop1 : StopBits)
  (MaxTimeout : Duration).
Context {World : Type}.
Variable openPort : Config → World → opened World * World.
Implicit Types (σ : state World) (w : World) (l x : loc) (c v : Config).

(** A zero field equals its default only when the default is zero. *)
Lemma default_fixed_iff (dflt field : Z) :
  (if field =? 0 then dflt else field) = field ↔ (field = 0 → dflt = 0).
Proof.
  destruct (field =? 0) eqn:Hf.
  - apply Z.eqb_eq in Hf. split; [intros; lia | intros H; rewrite H; lia].
  - apply Z.eqb_neq in Hf. split; [intros; lia | done].
Qed.

(** A field that was defaulted or kept is zero only when the default is. *)
Lemma default_zero (dflt field : Z) :
  (if field =? 0 then dflt else field) = 0 → dflt = 0.
Proof.
  destruct (field =? 0) eqn:Hf; [done|].
  apply Z.eqb_neq in Hf. lia.
Qed.

Lemma call_OpenPort_run σ x c :
  heap σ !! x = Some c →
  call_OpenPort DefaultSize ParityNone Stop1 MaxTimeout openPort x σ
  = Some ((openPort
             (OpenPort_normalize DefaultSize ParityNone Stop1 MaxTimeout c)
             (world σ)).1,
          mk_state (heap σ)
            (openPort
               (OpenPort_normalize DefaultSize ParityNone Stop1 MaxTimeout c)
               (world σ)).2).
Proof.
  intros Hx. unfold call_OpenPort.
  rewrite (bind_run _ _ _ _ _ (load_run _ _ _ Hx)).
  apply OpenPort_call_run.
Qed.

(** X1. Whatever combination of [Size], [Parity] and [StopBits] the caller
    set, each of them is decided by the caller's value of that field alone:
    the three tests do not interfere, and the normalised record is the
    caller's [Name] and [Baud], each optional field or its default, and
    [MaxTimeout]. *)
Theorem OpenPort_normalize_fieldwise c :
  OpenPort_normalize DefaultSize ParityNone Stop1 MaxTimeout c
  = Config.mk (Config.Name c) (Config.Baud c)
      (if Config.Size c =? 0 then DefaultSize else Config.Size c)
      (if Config.Parity c =? 0 then ParityNone else Config.Parity c)
      (if Config.StopBits c =? 0 then Stop1 else Config.StopBits c)
      MaxTimeout.
Proof.
  apply Config_ext; cbn [Config.Name Config.Baud Config.Size Config.Parity
                         Config.StopBits Config.timeout].
  - apply normalize_Name.
  - apply normalize_Baud.
  - apply normalize_Size.
  - apply normalize_Parity.
  - apply normalize_StopBits.
  - apply normalize_timeout.
Qed.

(** X2. Leaving an optional field at zero and setting it to its default are
    the same call: the backend is given the same record in the same world,
    so [OpenPort] returns the same result. *)
Theorem OpenPort_explicit_default c w :
  (Config.Size c = 0 →
   OpenPort DefaultSize ParityNone Stop1 MaxTimeout openPort
     (Config.set_Size DefaultSize c) w
   = OpenPort DefaultSize ParityNone Stop1 MaxTimeout openPort c w)
  ∧ (Config.Parity c = 0 →
     OpenPort DefaultSize ParityNone Stop1 MaxTimeout openPort
       (Config.set_Parity ParityNone c) w
     = OpenPort DefaultSize ParityNone Stop1 MaxTimeout openPort c w)
  ∧ (Config.StopBits c = 0 →
     OpenPort DefaultSize ParityNone Stop1 MaxTimeout openPort
       (Config.set_StopBits Stop1 c) w
     = OpenPort DefaultSize ParityNone Stop1 MaxTimeout openPort c w).
Proof.
  unfold OpenPort. split_and!; intros H0; f_equal;
    rewrite !OpenPort_normalize_fieldwise; cbn; rewrite H0; cbn.
  - by destruct (DefaultSize =? 0).
  - by destruct (ParityNone =? 0).
  - by destruct (Stop1 =? 0).
Qed.

(** X3. [OpenPort] passes the caller's record on exactly as it is if and
    only if its [timeout] is already [MaxTimeout] and no optional field is
    zero (or the field is zero and so is its default). *)
Theorem OpenPort_normalize_fixed_iff c :
  OpenPort_normalize DefaultSize ParityNone Stop1 MaxTimeout c = c
  ↔ Config.timeout c = MaxTimeout
    ∧ (Config.Size c = 0 → DefaultSize = 0)
    ∧ (Config.Parity c = 0 → ParityNone = 0)
    ∧ (Config.StopBits c = 0 → Stop1 = 0).
Proof.
  rewrite <- !default_fixed_iff. split.
  - intros H.
    pose proof (normalize_timeout DefaultSize ParityNone Stop1 MaxTimeout c)
      as Et.
    pose proof (normalize_Size DefaultSize ParityNone Stop1 MaxTimeout c)
      as ES.
    pose proof (normalize_Parity DefaultSize ParityNone Stop1 MaxTimeout c)
      as EP.
    pose proof (normalize_StopBits DefaultSize ParityNone Stop1 MaxTimeout c)
      as EB.
    rewrite H in Et, ES, EP, EB. by split_and!.
  - intros (Ht & HS & HP & HB). apply Config_ext.
    + apply normalize_Name.
    + apply normalize_Baud.
    + rewrite normalize_Size. exact HS.
    + rewrite normalize_Parity. exact HP.
    + rewrite normalize_StopBits. exact HB.
    + by rewrite normalize_timeout.
Qed.

(** X4. The records a backend can be given are exactly those with
    [timeout = MaxTimeout] in which an optional field is zero only if its
    default is zero: every such record is the normal form of some caller's
    record, and no other record is. *)
Theorem OpenPort_normalize_range c' :
  (∃ c, OpenPort_normalize DefaultSize ParityNone Stop1 MaxTimeout c = c')
  ↔ Config.timeout c' = MaxTimeout
    ∧ (Config.Size c' = 0 → DefaultSize = 0)
    ∧ (Config.Parity c' = 0 → ParityNone = 0)
    ∧ (Config.StopBits c' = 0 → Stop1 = 0).
Proof.
  split.
  - intros [c <-]. rewrite OpenPort_normalize_fieldwise; cbn.
    split_and!; [done | apply default_zero ..].
  - intros H. exists c'. by apply OpenPort_normalize_fixed_iff.
Qed.

(** X5. Two calls [OpenPort(x)] in a row on the same variable: the first
    leaves the variable as it was, so the backend gets the same normalised
    record both times, the second time in the world the first call left. *)
Theorem OpenPort_twice x c σ :
  heap σ !! x = Some c →
  (r1 ← call_OpenPort DefaultSize ParityNone Stop1 MaxTimeout openPort x;
   r2 ← call_OpenPort DefaultSize ParityNone Stop1 MaxTimeout openPort x;
   mret (r1, r2)) σ
  = Some
      (((openPort (OpenPort_normalize DefaultSize ParityNone Stop1 MaxTimeout c)
           (world σ)).1,
        (openPort (OpenPort_normalize DefaultSize ParityNone Stop1 MaxTimeout c)
           (openPort
              (OpenPort_normalize DefaultSize ParityNone Stop1 MaxTimeout c)
              (world σ)).2).1),
       mk_state (heap σ)
         (openPort (OpenPort_normalize DefaultSize ParityNone Stop1 MaxTimeout c)
            (openPort
               (OpenPort_normalize DefaultSize ParityNone Stop1 MaxTimeout c)
               (world σ)).2).2).
Proof.
  intros Hx.
  rewrite (bind_run _ _ _ _ _ (call_OpenPort_run σ x c Hx)).
  erewrite bind_run; [|by apply call_OpenPort_run].
  by rewrite ret_run.
Qed.

End Further.

(** X6. An error made by a later [errors.New] is none of the five exported
    values, even when its text is the text of one of them: the exported
    errors can only be matched with [==] by returning the package's own
    variables. *)
Theorem errors_New_not_exported (start : positive) :
  ∃ p next,
    package_init start = Some (p, next)
    ∧ ∀ (text : string) (n : positive),
        (next ≤ n)%positive →
        ∃ e n',
          errors_New text n = Some (e, n')
          ∧ Error e = text
          ∧ e ∉ exported_errors p.
Proof.
  eexists _, _. split; [apply package_init_run|].
  intros text n Hn. eexists _, _. split; [apply errors_New_run|].
  split; [done|]. unfold exported_errors; cbn.
  rewrite !not_elem_of_cons.
  split_and!; try apply not_elem_of_nil; intros [= Hptr _]; lia.
Qed.

(** ** The further properties at the sample inputs *)

Lemma OpenPort_explicit_default_witness :
  (Config.Size com5 = 0
   ∧ OpenPort sample_DefaultSize sample_ParityNone sample_Stop1
       sample_MaxTimeout openPort_none
       (Config.set_Size sample_DefaultSize com5) ()
     = OpenPort sample_DefaultSize sample_ParityNone sample_Stop1
         sample_MaxTimeout openPort_none com5 ())
  ∧ (Config.Parity com5 = 0
     ∧ OpenPort sample_DefaultSize sample_ParityNone sample_Stop1
         sample_MaxTimeout openPort_none
         (Config.set_Parity sample_ParityNone com5) ()
       = OpenPort sample_DefaultSize sample_ParityNone sample_Stop1
           sample_MaxTimeout openPort_none com5 ())
  ∧ (Config.StopBits com5 = 0
     ∧ OpenPort sample_DefaultSize sample_ParityNone sample_Stop1
         sample_MaxTimeout openPort_none
         (Config.set_StopBits sample_Stop1 com5) ()
       = OpenPort sample_DefaultSize sample_ParityNone sample_Stop1
           sample_MaxTimeout openPort_none com5 ()).
Proof.
  destruct (OpenPort_explicit_default sample_DefaultSize sample_ParityNone
              sample_Stop1 sample_MaxTimeout openPort_none com5 ())
    as (HS & HP & HB).
  split; [split; [reflexivity | apply HS; reflexivity]|].
  split; [split; [reflexivity | apply HP; reflexivity]|].
  split; [reflexivity | apply HB; reflexivity].
Defined.

Lemma OpenPort_twice_witness :
  heap caller_state !! 1%positive = Some com5
  ∧ (r1 ← call_OpenPort sample_DefaultSize sample_ParityNone sample_Stop1
            sample_MaxTimeout openPort_none 1%positive;
     r2 ← call_OpenPort sample_DefaultSize sample_ParityNone sample_Stop1
            sample_MaxTimeout openPort_none 1%positive;
     mret (r1, r2)) caller_state
    = Some (((None, Some no_device), (None, Some no_device)), caller_state).
Proof.
  split; [reflexivity|].
  apply (OpenPort_twice sample_DefaultSize sample_ParityNone sample_Stop1
           sample_MaxTimeout openPort_none 1%positive com5 caller_state).
  reflexivity.
Defined.

Lemma errors_New_not_exported_witness :
  ∃ p next,
    package_init 1%positive = Some (p, next)
    ∧ (next ≤ 6)%positive
    ∧ ∃ e n',
        errors_New "serial: not supported" 6%positive = Some (e, n')
        ∧ Error e = Error (ErrNotSupported p)
        ∧ e ∉ exported_errors p.
Proof.
  destruct (errors_New_not_exported 1%positive) as (p & next & Hinit & Hnew).
  exists p, next. split; [exact Hinit|].
  assert (Hp : Some (p, next)
               = Some (mk_package_errors
                         (mk_error 1 "serial: not supported")
                         (mk_error 2 "serial: unsupported serial data size")
                         (mk_error 3 "serial: unsupported stop bit setting")
                         (mk_error 4 "serial: unsupported parity setting")
                         (mk_error 5 "serial: invalid argument"),
                       6%positive))
    by (rewrite <- Hinit; reflexivity).
  injection Hp as -> ->.
  split; [discriminate|].
  destruct (Hnew "serial: not supported" 6%positive) as (e & n' & He & Ht & Hne);
    [discriminate|].
  exists e, n'. split; [exact He|]. split; [exact Ht | exact Hne].
Defined.
